(** * beartype: decorator configuration and callable-parameter testers

    A shallow embedding of

    - [beartype/_decor/conf.py]: the [BeartypeStrategy] enumeration, the
      [BeartypeConfiguration] class and the [BEAR_CONF_DEFAULT] singleton;
    - [beartype/_util/func/arg/utilfuncargtest.py]: the testers and the
      validator over the parameters a callable accepts.

    Python objects are dynamically typed, so arguments whose type the code
    checks at run time are values of [pyval]; instances live in a heap and
    are compared by address, as [is] does; a call that can raise returns a
    [result]. *)

From Stdlib Require Import ZArith List String Ascii Bool Lia DecimalString.
From stdpp Require Import base option list gmap strings.

Import ListNotations.
Local Open Scope string_scope.
Local Open Scope Z_scope.
Local Open Scope list_scope.

(** ** The [enum] module: [auto] and [unique] *)

Module Enum.

(** [enum.auto()], imported as [next_enum_member_value]: the value of the
    member declared last plus one, and 1 for the first member. *)
Definition next_enum_member_value (last_values : list Z) : Z :=
  match rev last_values with
  | v :: _ => v + 1
  | [] => 1
  end.

(** The class body assigns one member after the other. *)
Definition declare {M : Type} (members : list (M * Z)) (m : M) : list (M * Z) :=
  members ++ [(m, next_enum_member_value (map snd members))].

Fixpoint has_value (v : Z) (values : list Z) : bool :=
  match values with
  | [] => false
  | w :: ws => (v =? w) || has_value v ws
  end.

Fixpoint values_unique (values : list Z) : bool :=
  match values with
  | [] => true
  | v :: vs => negb (has_value v vs) && values_unique vs
  end.

(** [enum.unique], imported as [die_unless_enum_member_values_unique]: the
    class is returned as it is unless two members share a value. *)
Definition die_unless_enum_member_values_unique {M : Type}
    (members : list (M * Z)) : option (list (M * Z)) :=
  if values_unique (map snd members) then Some members else None.

End Enum.

(** ** conf.py: the strategy enumeration *)

Inductive BeartypeStrategy : Set := O0 | O1 | Ologn | On.

#[global] Instance BeartypeStrategy_eq_dec : EqDecision BeartypeStrategy.
Proof. solve_decision. Defined.

(** The members in the order the class body declares them. *)
Definition BeartypeStrategy_names : list BeartypeStrategy := [O0; O1; Ologn; On].

(** The class after its body ran, before the decorator. *)
Definition BeartypeStrategy_body : list (BeartypeStrategy * Z) :=
  fold_left Enum.declare BeartypeStrategy_names [].

(** The decorated class: [None] would be the [ValueError] of [unique]. *)
Definition BeartypeStrategy_class : option (list (BeartypeStrategy * Z)) :=
  Enum.die_unless_enum_member_values_unique BeartypeStrategy_body.

(** [BeartypeStrategy.__members__.values()]: iteration is in declaration
    order. *)
Definition BeartypeStrategy_members : list BeartypeStrategy :=
  map fst (default [] BeartypeStrategy_class).

Fixpoint assoc_value (m : BeartypeStrategy) (tbl : list (BeartypeStrategy * Z)) : option Z :=
  match tbl with
  | [] => None
  | (m', v) :: tbl' => if decide (m = m') then Some v else assoc_value m tbl'
  end.

(** [member.value]. *)
Definition value (m : BeartypeStrategy) : Z :=
  default 0 (assoc_value m (default [] BeartypeStrategy_class)).

(** ** Python values, types and exceptions *)

Inductive pyval : Type :=
| PyNone
| PyBool (b : bool)
| PyInt (n : Z)
| PyStr (s : string)
| PyEnum (m : BeartypeStrategy)
| PyInstance (addr : nat).

#[global] Instance pyval_eq_dec : EqDecision pyval.
Proof. solve_decision. Defined.

Inductive pytype : Set :=
| NoneType | bool_t | int_t | str_t | BeartypeStrategy_t | BeartypeConfiguration_t.

Definition type_of (v : pyval) : pytype :=
  match v with
  | PyNone => NoneType
  | PyBool _ => bool_t
  | PyInt _ => int_t
  | PyStr _ => str_t
  | PyEnum _ => BeartypeStrategy_t
  | PyInstance _ => BeartypeConfiguration_t
  end.

(** [bool] is a subclass of [int]; the other types are unrelated. *)
Definition issubclass (t u : pytype) : bool :=
  match t, u with
  | NoneType, NoneType => true
  | bool_t, bool_t => true
  | bool_t, int_t => true
  | int_t, int_t => true
  | str_t, str_t => true
  | BeartypeStrategy_t, BeartypeStrategy_t => true
  | BeartypeConfiguration_t, BeartypeConfiguration_t => true
  | _, _ => false
  end.

Definition isinstance (v : pyval) (t : pytype) : bool := issubclass (type_of v) t.

(** [str(n)] for an integer. *)
Definition str_int (n : Z) : string := NilZero.string_of_int (Z.to_int n).

Definition strategy_name (m : BeartypeStrategy) : string :=
  match m with O0 => "O0" | O1 => "O1" | Ologn => "Ologn" | On => "On" end.

(** [str(v)], which an f-string applies to a value it formats. *)
Definition py_str (v : pyval) : string :=
  match v with
  | PyNone => "None"
  | PyBool true => "True"
  | PyBool false => "False"
  | PyInt n => str_int n
  | PyStr s => s
  | PyEnum m => "BeartypeStrategy." +:+ strategy_name m
  | PyInstance _ => "<beartype._decor.conf.BeartypeConfiguration object>"
  end.

(** The integer an [int] instance stands for in a comparison
    ([True == 1] and [False == 0]). *)
Definition int_value (v : pyval) : option Z :=
  match v with
  | PyInt n => Some n
  | PyBool b => Some (if b then 1 else 0)
  | _ => None
  end.

(** Exception classes: the two builtins the sources raise, the default
    [exception_cls] of the testers, and any other class a caller passes. *)
Inductive ExcClass : Set :=
| AssertionError
| ValueError
| _BeartypeUtilCallableException
| OtherException (name : string).

#[global] Instance ExcClass_eq_dec : EqDecision ExcClass.
Proof. solve_decision. Defined.

(** A raised exception: its class, the arguments its constructor got and the
    line of the [raise] (or [assert]) statement in its traceback. *)
Record PyExc : Type := mkExc {
  exc_cls : ExcClass;
  exc_args : list pyval;
  exc_lineno : Z
}.

Inductive PyError : Type :=
| Raised (e : PyExc)
  (** raised by a statement of the embedded sources *)
| NotCodeobjable (cls : ExcClass)
  (** raised by [get_func_codeobj], whose message the embedding leaves out *).

Definition error_class (e : PyError) : ExcClass :=
  match e with
  | Raised x => exc_cls x
  | NotCodeobjable cls => cls
  end.

Inductive result (A : Type) : Type :=
| Ok (a : A)
| Raise (e : PyError).

Arguments Ok {A} a.
Arguments Raise {A} e.

Definition bind {A B : Type} (r : result A) (k : A -> result B) : result B :=
  match r with
  | Ok a => k a
  | Raise e => Raise e
  end.

Notation "x <- e ;; k" := (bind e (fun x => k))
  (at level 100, e at next level, right associativity).

(** ** conf.py: the configuration class *)

Module Conf.

(** The heap: the [__dict__] of every instance allocated so far, an
    instance's address being its index. *)
Abbreviation Heap := (list (gmap string pyval)).

(** [object.__new__]: a fresh instance with no attribute. *)
Definition object_new (h : Heap) : nat * Heap := (length h, h ++ [∅]).

(** [self.name = v]. *)
Definition setattr (self : nat) (name : string) (v : pyval) (h : Heap) : Heap :=
  match h !! self with
  | Some d => <[self := <[name := v]> d]> h
  | None => h
  end.

(** [obj.name]. *)
Definition getattr (h : Heap) (obj : nat) (name : string) : option pyval :=
  d ← h !! obj; d !! name.

(** [BeartypeConfiguration.__init__]. *)
Definition __init__ (self : nat) (is_debug strategy : pyval) (h : Heap)
    : Heap * result unit :=
  if negb (isinstance is_debug bool_t) then
    (h, Raise (Raised (mkExc ValueError [] 133)))
  else if negb (isinstance strategy BeartypeStrategy_t) then
    (h, Raise (Raised (mkExc ValueError [] 135)))
  else
    let h := setattr self "is_debug" is_debug h in
    let h := setattr self "strategy" strategy h in
    (h, Ok tt).

(** The call [BeartypeConfiguration(...)]: the class declares no
    [__new__], so [type.__call__] allocates with [object.__new__], runs
    [__init__] on the new instance and returns that instance. An omitted
    argument takes its default. *)
Definition BeartypeConfiguration (is_debug strategy : option pyval) (h : Heap)
    : Heap * result nat :=
  let '(self, h) := object_new h in
  let '(h, r) := __init__ self (default (PyBool false) is_debug)
                           (default (PyEnum O1) strategy) h in
  (h, _ <- r ;; Ok self).

(** The module body: [BEAR_CONF_DEFAULT = BeartypeConfiguration()] on the
    heap of a process that allocated no configuration before. *)
Definition module_init : Heap * result nat := BeartypeConfiguration None None [].

Definition heap_at_import : Heap := fst module_init.

Definition BEAR_CONF_DEFAULT : option nat :=
  match snd module_init with Ok a => Some a | Raise _ => None end.

(** [a is b] on two instances. *)
Definition is_ (a b : nat) : bool := Nat.eqb a b.

End Conf.

(** ** The interpreter: parameter lists and code objects *)

Module Code.

(** The flags of [inspect] the testers read, with the values CPython
    gives them, and the other flags a function's code object can carry. *)
Definition CO_VARARGS : Z := 4.
Definition CO_VARKEYWORDS : Z := 8.

Inductive CoFlag : Set :=
| CO_NESTED | CO_GENERATOR | CO_NOFREE | CO_COROUTINE
| CO_ITERABLE_COROUTINE | CO_ASYNC_GENERATOR.

Definition flag_bits (f : CoFlag) : Z :=
  match f with
  | CO_NESTED => 16
  | CO_GENERATOR => 32
  | CO_NOFREE => 64
  | CO_COROUTINE => 128
  | CO_ITERABLE_COROUTINE => 256
  | CO_ASYNC_GENERATOR => 512
  end.

(** [CO_OPTIMIZED | CO_NEWLOCALS], set on every function. *)
Definition CO_FUNCTION : Z := 3.

(** The attributes of a code object the testers and their helpers read. *)
Record CodeType : Type := mkCode {
  co_argcount : Z;
  co_posonlyargcount : Z;
  co_kwonlyargcount : Z;
  co_flags : Z;
  co_varnames : list string
}.

(** A parameter that is no collector: its name and whether the
    declaration gives it a default. *)
Record Param : Type := mkParam {
  p_name : string;
  p_default : bool
}.

(** The parameter list of a [def], in the five groups the grammar
    orders it in, with what else decides the code object. *)
Record FuncDef : Type := mkDef {
  posonly : list Param;          (* before [/] *)
  flexible : list Param;         (* positional or keyword *)
  varargs : option string;       (* [*args] *)
  kwonly : list Param;           (* after [*] or [*args] *)
  varkw : option string;         (* [**kwargs] *)
  body_locals : list string;     (* the local variables of the body *)
  body_flags : list CoFlag       (* generator, coroutine, closure... *)
}.

Definition opt_names (o : option string) : list string :=
  match o with Some n => [n] | None => [] end.

Definition declared (o : option string) : bool :=
  match o with Some _ => true | None => false end.

Definition def_flags (d : FuncDef) : Z :=
  Z.lor (fold_right (fun f acc => Z.lor (flag_bits f) acc) CO_FUNCTION (body_flags d))
        (Z.lor (if declared (varargs d) then CO_VARARGS else 0)
               (if declared (varkw d) then CO_VARKEYWORDS else 0)).

(** The code object the compiler builds for a [def]: [co_argcount] counts
    the positional parameters, positional-only ones included;
    [co_varnames] starts with the parameter names, positional first, then
    keyword-only, then the two collectors. *)
Definition compile (d : FuncDef) : CodeType :=
  {| co_argcount := Z.of_nat (length (posonly d) + length (flexible d));
     co_posonlyargcount := Z.of_nat (length (posonly d));
     co_kwonlyargcount := Z.of_nat (length (kwonly d));
     co_flags := def_flags d;
     co_varnames :=
       map p_name (posonly d) ++ map p_name (flexible d) ++
       map p_name (kwonly d) ++ opt_names (varargs d) ++
       opt_names (varkw d) ++ body_locals d |}.

(** Binding the call [f()]: with no argument passed nothing is in excess,
    and a parameter that is no collector needs its default. *)
Definition call_without_args_binds (d : FuncDef) : bool :=
  forallb p_default (posonly d ++ flexible d ++ kwonly d).

(** What the testers are passed: a function (and, when a decorator set
    [__wrapped__] on it, the function it wraps), a frame, a code object,
    or something that has no code object. *)
Inductive Codeobjable : Type :=
| Function (code : CodeType)
| Wrapper (code : CodeType) (wrapped : Codeobjable)
| Frame (f_code : CodeType)
| CodeObject (code : CodeType)
| Builtin (name : string)
| NotCallable (v : pyval).

End Code.

Import Code.

(** ** The helpers the testers import *)

Module utilfunccodeobj.

(** Modelled from the spec: [get_func_codeobj] of
    [beartype._util.func.utilfunccodeobj] is not among the sources. It
    resolves a callable, a frame or a code object to the code object,
    unwrapping the forwarding layers when asked to, and fails with the
    passed exception class when the input has no code object. *)
Fixpoint get_func_codeobj (func : Codeobjable) (is_unwrapping : bool)
    (exception_cls : ExcClass) : result CodeType :=
  match func with
  | Function c => Ok c
  | Wrapper c wrapped =>
      if is_unwrapping then get_func_codeobj wrapped is_unwrapping exception_cls
      else Ok c
  | Frame c => Ok c
  | CodeObject c => Ok c
  | Builtin _ => Raise (NotCodeobjable exception_cls)
  | NotCallable _ => Raise (NotCodeobjable exception_cls)
  end.

End utilfunccodeobj.

Module utilfuncargget.

(** Modelled from the spec: [get_func_args_len_flexible] of
    [beartype._util.func.arg.utilfuncargget] is not among the sources.
    The number of parameters passable either positionally or by name:
    the collectors, the keyword-only parameters and the parameters that
    cannot be passed by name are not counted. *)
Definition get_func_args_len_flexible (func : Codeobjable)
    (exception_cls : ExcClass) : result Z :=
  func_codeobj <- utilfunccodeobj.get_func_codeobj func true exception_cls ;;
  Ok (co_argcount func_codeobj - co_posonlyargcount func_codeobj).

End utilfuncargget.

Module utilfuncargiter.

Inductive ArgKind : Set :=
| POSITIONAL_ONLY | POSITIONAL_OR_KEYWORD | VAR_POSITIONAL
| KEYWORD_ONLY | VAR_KEYWORD.

(** A parameter descriptor: a kind tag and a name. *)
Record ArgMeta : Type := mkArg {
  kind : ArgKind;
  name : string
}.

(** Modelled from the spec: [iter_func_args] of
    [beartype._util.func.arg.utilfuncargiter] is not among the sources.
    The finite sequence of the descriptors of all parameters, of any
    kind, in declaration order, read off the code object. *)
Definition iter_func_args (func : Codeobjable) : result (list ArgMeta) :=
  c <- utilfunccodeobj.get_func_codeobj func true _BeartypeUtilCallableException ;;
  let n_pos := Z.to_nat (co_argcount c) in
  let n_posonly := Z.to_nat (co_posonlyargcount c) in
  let n_kwonly := Z.to_nat (co_kwonlyargcount c) in
  let positional := take n_pos (co_varnames c) in
  let keyword_only := take n_kwonly (drop n_pos (co_varnames c)) in
  let collectors := drop (n_pos + n_kwonly) (co_varnames c) in
  let var_positional :=
    if Z.land (co_flags c) CO_VARARGS =? 0 then [] else take 1 collectors in
  let var_keyword :=
    if Z.land (co_flags c) CO_VARKEYWORDS =? 0 then []
    else take 1 (drop (length var_positional) collectors) in
  Ok (map (mkArg POSITIONAL_ONLY) (take n_posonly positional) ++
      map (mkArg POSITIONAL_OR_KEYWORD) (drop n_posonly positional) ++
      map (mkArg VAR_POSITIONAL) var_positional ++
      map (mkArg KEYWORD_ONLY) keyword_only ++
      map (mkArg VAR_KEYWORD) var_keyword).

(** The descriptors a declaration reads as, in declaration order. *)
Definition parameters (d : FuncDef) : list ArgMeta :=
  map (fun p => mkArg POSITIONAL_ONLY (p_name p)) (posonly d) ++
  map (fun p => mkArg POSITIONAL_OR_KEYWORD (p_name p)) (flexible d) ++
  map (mkArg VAR_POSITIONAL) (opt_names (varargs d)) ++
  map (fun p => mkArg KEYWORD_ONLY (p_name p)) (kwonly d) ++
  map (mkArg VAR_KEYWORD) (opt_names (varkw d)).

End utilfuncargiter.

Import utilfuncargiter.

(** ** utilfuncargtest.py *)

Module utilfuncargtest.

Import utilfunccodeobj.

(** The builtin [any] over the items a generator yields: it stops at the
    first item that is true. *)
Fixpoint any {A : Type} (test : A -> bool) (items : list A) : bool :=
  match items with
  | [] => false
  | x :: rest => if test x then true else any test rest
  end.

(** [is_func_arg_variadic_positional]. *)
Definition is_func_arg_variadic_positional (func : Codeobjable) : result bool :=
  func_codeobj <- get_func_codeobj func true _BeartypeUtilCallableException ;;
  Ok (negb (Z.land (co_flags func_codeobj) CO_VARARGS =? 0)).

(** [is_func_arg_variadic_keyword]. *)
Definition is_func_arg_variadic_keyword (func : Codeobjable) : result bool :=
  func_codeobj <- get_func_codeobj func true _BeartypeUtilCallableException ;;
  Ok (negb (Z.land (co_flags func_codeobj) CO_VARKEYWORDS =? 0)).

(** [is_func_arg_variadic]: [or] evaluates its right operand only when
    the left one is false. *)
Definition is_func_arg_variadic (func : Codeobjable) : result bool :=
  positional <- is_func_arg_variadic_positional func ;;
  if positional then Ok true else is_func_arg_variadic_keyword func.

(** [is_func_argless]: the variadic tester is passed the code object
    already resolved, and only when the count is zero. *)
Definition is_func_argless (func : Codeobjable) (exception_cls : ExcClass)
    : result bool :=
  func_codeobj <- get_func_codeobj func true exception_cls ;;
  if co_argcount func_codeobj + co_kwonlyargcount func_codeobj >? 0 then
    Ok (negb true)
  else
    variadic <- is_func_arg_variadic (CodeObject func_codeobj) ;;
    Ok (negb variadic).

Section LateImports.

(** [repr] of the callable, which the interpreter decides. *)
Variable repr : Codeobjable -> string.

(** The two helpers the function bodies import when they run. *)
Variable get_func_args_len_flexible : Codeobjable -> ExcClass -> result Z.
Variable iter_func_args : Codeobjable -> result (list ArgMeta).

(** [die_unless_func_args_len_flexible_equal]; [None] is returned when
    nothing is raised. [exception_cls] is a class by its type, so the
    assertion of line 129 holds. *)
Definition die_unless_func_args_len_flexible_equal (func : Codeobjable)
    (func_args_len_flexible : pyval) (exception_cls : ExcClass)
    : result unit :=
  if negb (isinstance func_args_len_flexible int_t) then
    Raise (Raised (mkExc AssertionError [] 116))
  else
    func_args_len_flexible_actual <-
      get_func_args_len_flexible func exception_cls ;;
    if negb (bool_decide (Some func_args_len_flexible_actual =
                          int_value func_args_len_flexible)) then
      Raise (Raised (mkExc exception_cls
        [PyStr ("Callable " +:+ repr func +:+ " flexible argument count " +:+
                str_int func_args_len_flexible_actual +:+ " != " +:+
                py_str func_args_len_flexible +:+ ".")]
        131))
    else
      Ok tt.

(** [is_func_arg_name]. *)
Definition is_func_arg_name (func : Codeobjable) (arg_name : pyval)
    : result bool :=
  if negb (isinstance arg_name str_t) then
    Raise (Raised (mkExc AssertionError
      [PyStr (py_str arg_name +:+ " not string.")] 329))
  else
    args <- iter_func_args func ;;
    Ok (any (fun arg_meta => bool_decide (PyStr (name arg_meta) = arg_name)) args).

End LateImports.

End utilfuncargtest.

Import utilfuncargtest.

(** ** What the statements below are written with *)

(** [part in whole] on strings. *)
Definition contains (part whole : string) : Prop :=
  exists before after, whole = before +:+ part +:+ after.

(** The exception classes of the three documented error kinds: [ValueError]
    for a configuration field, and the default [exception_cls] for an input
    without code object and for a flexible count that differs. *)
Definition in_error_taxonomy (cls : ExcClass) : bool :=
  match cls with
  | ValueError => true
  | _BeartypeUtilCallableException => true
  | _ => false
  end.

(** The two constraints of the configuration's constructor. *)
Definition is_bool (v : pyval) : Prop := exists b, v = PyBool b.
Definition is_strategy_member (v : pyval) : Prop :=
  exists m, v = PyEnum m /\ m ∈ BeartypeStrategy_members.

(** The state the constructor leaves an instance in: no attribute, when
    [__init__] raised, or the two attributes, a [bool] and a member. *)
Definition instance_ok (d : gmap string pyval) : Prop :=
  d = ∅ \/ exists (b : bool) (m : BeartypeStrategy),
             d = <["strategy" := PyEnum m]> (<["is_debug" := PyBool b]> ∅).

(** The heap after a sequence of constructor calls, each given by its two
    optional arguments, on a heap that starts empty. *)
Definition heap_after (calls : list (option pyval * option pyval))
    : list (gmap string pyval) :=
  fold_left (fun h call => (Conf.BeartypeConfiguration call.1 call.2 h).1) calls [].

(** ** Declarations the statements are tried on *)

Module Examples.

Definition required (n : string) : Param := mkParam n false.
Definition optional (n : string) : Param := mkParam n true.

(** [def f(): ...] *)
Definition f_no_parameter : FuncDef := mkDef [] [] None [] None [] [].

(** [def f(a): ...] *)
Definition f_a : FuncDef := mkDef [] [required "a"] None [] None [] [].

(** [def f(a, b): ...] *)
Definition f_a_b : FuncDef := mkDef [] [required "a"; required "b"] None [] None [] [].

(** [def f(a, /): ...] *)
Definition f_a_slash : FuncDef := mkDef [required "a"] [] None [] None [] [].

(** [def f( *args): ...] *)
Definition f_star_args : FuncDef := mkDef [] [] (Some "args") [] None [] [].

(** [def f( **b): ...] *)
Definition f_star_star_b : FuncDef := mkDef [] [] None [] (Some "b") [] [].

(** [def f(a, /, b, *args, c=0, **kwargs): x = ...; yield x], nested in
    another function. *)
Definition f_all_kinds : FuncDef :=
  mkDef [required "a"] [required "b"] (Some "args") [optional "c"] (Some "kwargs")
        ["x"] [CO_NESTED; CO_GENERATOR].

(** A [repr] that tells functions from the rest. *)
Definition repr (func : Codeobjable) : string :=
  match func with
  | Function _ => "<function f>"
  | Wrapper _ _ => "<function wrapper>"
  | Frame _ => "<frame>"
  | CodeObject _ => "<code object f>"
  | Builtin n => "<built-in function " +:+ n +:+ ">"
  | NotCallable v => py_str v
  end.

End Examples.

(** * The strategy enumeration *)

Lemma BeartypeStrategy_class_eq :
  BeartypeStrategy_class = Some [(O0, 1); (O1, 2); (Ologn, 3); (On, 4)].
Proof. reflexivity. Qed.

Lemma BeartypeStrategy_members_eq : BeartypeStrategy_members = [O0; O1; Ologn; On].
Proof. reflexivity. Qed.

Lemma BeartypeStrategy_member (m : BeartypeStrategy) : m ∈ BeartypeStrategy_members.
Proof. rewrite BeartypeStrategy_members_eq. destruct m; set_solver. Qed.

Lemma value_inj (m n : BeartypeStrategy) : value m = value n -> m = n.
Proof. destruct m, n; intros E; try reflexivity; discriminate E. Qed.

Lemma isinstance_bool (v : pyval) : isinstance v bool_t = true <-> is_bool v.
Proof.
  split.
  - destruct v; try discriminate. intros _. now exists b.
  - intros [b ->]. reflexivity.
Qed.

Lemma isinstance_strategy (v : pyval) :
  isinstance v BeartypeStrategy_t = true <-> is_strategy_member v.
Proof.
  split.
  - destruct v; try discriminate. intros _. exists m.
    split; [reflexivity | apply BeartypeStrategy_member].
  - intros (m & -> & _). reflexivity.
Qed.

(** C7. The enumeration has exactly the four members [O0], [O1], [Ologn]
    and [On]: every strategy is one of them (nothing can be added), they are
    pairwise distinct, equality on them is decidable, the membership test
    answers on every value and says yes exactly on the members, and the
    values [auto] gave them are distinct and grow with the position in the
    declaration, so that they order the members totally. *)
Theorem BeartypeStrategy_closed_distinct_ordered :
  BeartypeStrategy_members = [O0; O1; Ologn; On]
  /\ (forall m : BeartypeStrategy, m ∈ BeartypeStrategy_members)
  /\ NoDup BeartypeStrategy_members
  /\ (forall m n : BeartypeStrategy, bool_decide (m = n) = true <-> m = n)
  /\ (forall v : pyval,
        (isinstance v BeartypeStrategy_t = true /\ is_strategy_member v)
        \/ (isinstance v BeartypeStrategy_t = false /\ ~ is_strategy_member v))
  /\ (forall m n : BeartypeStrategy, value m = value n <-> m = n)
  /\ (forall (i j : nat) (m n : BeartypeStrategy),
        BeartypeStrategy_members !! i = Some m ->
        BeartypeStrategy_members !! j = Some n ->
        ((i < j)%nat <-> value m < value n))
  /\ (forall m n : BeartypeStrategy, value m < value n \/ m = n \/ value n < value m).
Proof.
  split; [reflexivity |].
  split; [exact BeartypeStrategy_member |].
  split.
  { rewrite BeartypeStrategy_members_eq. compute_done. }
  split; [intros m n; apply bool_decide_eq_true |].
  split.
  { intros v. destruct (isinstance v BeartypeStrategy_t) eqn:E.
    - left. split; [reflexivity | now apply isinstance_strategy].
    - right. split; [reflexivity |]. intros M.
      apply isinstance_strategy in M. congruence. }
  split.
  { intros m n. split; [apply value_inj | now intros ->]. }
  split.
  { intros i j m n Hi Hj. rewrite BeartypeStrategy_members_eq in Hi, Hj.
    destruct i as [|[|[|[|i]]]]; try discriminate Hi;
      destruct j as [|[|[|[|j]]]]; try discriminate Hj;
      injection Hi as <-; injection Hj as <-;
      split; intros H; try lia; try (vm_compute; reflexivity);
      try (vm_compute in H; discriminate H). }
  intros m n.
  destruct (Z.lt_trichotomy (value m) (value n)) as [H | [H | H]].
  - now left.
  - right; left. now apply value_inj.
  - now right; right.
Qed.

(** * The configuration class *)

Section Configuration.

Import Conf.

Implicit Types (h : list (gmap string pyval)) (v : pyval).

Lemma setattr_last h (d : gmap string pyval) (name : string) v :
  setattr (length h) name v (h ++ [d]) = h ++ [<[name := v]> d].
Proof.
  unfold setattr. rewrite list_lookup_middle by reflexivity.
  rewrite insert_app_r_alt by lia. now rewrite Nat.sub_diag.
Qed.

Lemma getattr_last h (d : gmap string pyval) (name : string) :
  getattr (h ++ [d]) (length h) name = d !! name.
Proof. unfold getattr. now rewrite list_lookup_middle by reflexivity. Qed.

(** A call with valid arguments: the new instance sits past the instances
    there were, with the two attributes and nothing else. *)
Lemma BeartypeConfiguration_valid h (is_debug strategy : option pyval) :
  isinstance (default (PyBool false) is_debug) bool_t = true ->
  isinstance (default (PyEnum O1) strategy) BeartypeStrategy_t = true ->
  BeartypeConfiguration is_debug strategy h =
    (h ++ [<["strategy" := default (PyEnum O1) strategy]>
             (<["is_debug" := default (PyBool false) is_debug]> ∅)],
     Ok (length h)).
Proof.
  intros Hd Hs. unfold BeartypeConfiguration, object_new, __init__.
  rewrite Hd, Hs. cbn [negb]. now rewrite !setattr_last.
Qed.

(** A call with an invalid argument: the instance was allocated and left
    without attribute, and the line of the [raise] tells the failed test. *)
Lemma BeartypeConfiguration_invalid h (is_debug strategy : option pyval) :
  isinstance (default (PyBool false) is_debug) bool_t = false \/
  isinstance (default (PyEnum O1) strategy) BeartypeStrategy_t = false ->
  BeartypeConfiguration is_debug strategy h =
    (h ++ [∅],
     Raise (Raised (mkExc ValueError []
       (if isinstance (default (PyBool false) is_debug) bool_t then 135 else 133)))).
Proof.
  intros H. unfold BeartypeConfiguration, object_new, __init__.
  destruct (isinstance (default (PyBool false) is_debug) bool_t); cbn [negb].
  - destruct H as [H | H]; [discriminate H |]. now rewrite H.
  - reflexivity.
Qed.

(** C2. The constructor fails with [ValueError] exactly when [is_debug] is
    no [bool] or [strategy] is no member of the enumeration, an omitted
    argument standing for [False] and [BeartypeStrategy.O1]; it fails in no
    other way, and when it does not fail the instance it returns has the two
    arguments as its [is_debug] and [strategy] attributes. *)
Theorem BeartypeConfiguration_validates h (is_debug strategy : option pyval) :
  let d := default (PyBool false) is_debug in
  let s := default (PyEnum O1) strategy in
  let out := BeartypeConfiguration is_debug strategy h in
  ((exists e, out.2 = Raise e /\ error_class e = ValueError)
     <-> (~ is_bool d \/ ~ is_strategy_member s))
  /\ ((exists e, out.2 = Raise e /\ error_class e = ValueError)
      \/ (exists self, out.2 = Ok self
            /\ getattr out.1 self "is_debug" = Some d
            /\ getattr out.1 self "strategy" = Some s)).
Proof.
  intros d s out. subst out.
  destruct (isinstance d bool_t) eqn:Hd; [destruct (isinstance s BeartypeStrategy_t) eqn:Hs |].
  - rewrite (BeartypeConfiguration_valid h is_debug strategy Hd Hs). cbn [fst snd].
    split.
    + split.
      * intros (e & E & _). discriminate E.
      * intros [N | N]; exfalso; apply N;
          [now apply isinstance_bool | now apply isinstance_strategy].
    + right. exists (length h). split; [reflexivity |].
      rewrite !getattr_last. fold d s. split; now simplify_map_eq.
  - rewrite (BeartypeConfiguration_invalid h is_debug strategy (or_intror Hs)).
    cbn [fst snd]. split.
    + split.
      * intros _. right. intros M. apply isinstance_strategy in M. congruence.
      * intros _. eexists. split; reflexivity.
    + left. eexists. split; reflexivity.
  - rewrite (BeartypeConfiguration_invalid h is_debug strategy (or_introl Hd)).
    cbn [fst snd]. split.
    + split.
      * intros _. left. intros M. apply isinstance_bool in M. congruence.
      * intros _. eexists. split; reflexivity.
    + left. eexists. split; reflexivity.
Qed.

(** C10. When an argument is invalid the exception is a [ValueError] built
    with no argument, so it carries neither a message nor the field or the
    value; the instance that was allocated has no attribute, the instances
    there were are as before; and the test of [is_debug] comes first: line
    133 raises whenever [is_debug] is no [bool], whatever [strategy] is. *)
Theorem BeartypeConfiguration_error_is_bare h (is_debug strategy : option pyval) :
  let d := default (PyBool false) is_debug in
  let s := default (PyEnum O1) strategy in
  ~ is_bool d \/ ~ is_strategy_member s ->
  exists h' lineno,
    BeartypeConfiguration is_debug strategy h =
      (h', Raise (Raised (mkExc ValueError [] lineno)))
    /\ h' = h ++ [∅]
    /\ (forall name : string, getattr h' (length h) name = None)
    /\ (forall (obj : nat) (name : string),
          (obj < length h)%nat -> getattr h' obj name = getattr h obj name)
    /\ (~ is_bool d -> lineno = 133)
    /\ (is_bool d -> lineno = 135).
Proof.
  intros d s H.
  assert (H' : isinstance d bool_t = false \/ isinstance s BeartypeStrategy_t = false).
  { destruct H as [H | H]; [left | right].
    - destruct (isinstance d bool_t) eqn:E; [| reflexivity].
      exfalso. apply H. now apply isinstance_bool.
    - destruct (isinstance s BeartypeStrategy_t) eqn:E; [| reflexivity].
      exfalso. apply H. now apply isinstance_strategy. }
  eexists _, _. split; [apply (BeartypeConfiguration_invalid h is_debug strategy H') |].
  split; [reflexivity |].
  split; [intros name; now rewrite getattr_last |].
  split.
  { intros obj name Hlt. unfold getattr. now rewrite lookup_app_l by exact Hlt. }
  fold d. split.
  - intros N. destruct (isinstance d bool_t) eqn:E; [| reflexivity].
    exfalso. apply N. now apply isinstance_bool.
  - intros B. apply isinstance_bool in B. now rewrite B.
Qed.

Lemma BeartypeConfiguration_error_is_bare_witness :
  exists h' lineno,
    BeartypeConfiguration (Some (PyInt 1)) (Some (PyStr "O1")) [] =
      (h', Raise (Raised (mkExc ValueError [] lineno)))
    /\ h' = [] ++ [∅]
    /\ (forall name : string, getattr h' (length ([] : list (gmap string pyval))) name = None)
    /\ (forall (obj : nat) (name : string),
          (obj < length ([] : list (gmap string pyval)))%nat ->
          getattr h' obj name = getattr [] obj name)
    /\ (~ is_bool (PyInt 1) -> lineno = 133)
    /\ (is_bool (PyInt 1) -> lineno = 135).
Proof.
  apply (BeartypeConfiguration_error_is_bare [] (Some (PyInt 1)) (Some (PyStr "O1"))).
  left. intros [b E]. discriminate E.
Defined.

(** Whatever the arguments and the heap, a call that returns an instance
    returns the one it just allocated. *)
Lemma BeartypeConfiguration_fresh h (is_debug strategy : option pyval) (self : nat) :
  (BeartypeConfiguration is_debug strategy h).2 = Ok self ->
  self = length h /\ length (BeartypeConfiguration is_debug strategy h).1 = S (length h).
Proof.
  unfold BeartypeConfiguration, object_new, __init__.
  destruct (negb (isinstance _ bool_t)); [discriminate |].
  destruct (negb (isinstance _ BeartypeStrategy_t)); [discriminate |].
  cbn [fst snd bind]. intros [= <-]. split; [reflexivity |].
  rewrite !setattr_last. rewrite length_app. cbn. lia.
Qed.

(** No two calls return the same instance, equal arguments or not. *)
Lemma BeartypeConfiguration_never_reuses h (a1 a2 b1 b2 : option pyval) (x y : nat) :
  (BeartypeConfiguration a1 a2 h).2 = Ok x ->
  (BeartypeConfiguration b1 b2 (BeartypeConfiguration a1 a2 h).1).2 = Ok y ->
  is_ x y = false.
Proof.
  intros Hx Hy. apply BeartypeConfiguration_fresh in Hx as [-> Hl].
  apply BeartypeConfiguration_fresh in Hy as [-> _]. rewrite Hl.
  unfold is_. apply Nat.eqb_neq. lia.
Qed.

(** C1. Two calls with the same field values, here the defaults that
    [BEAR_CONF_DEFAULT] was built with when the module was imported, return
    two instances: the class has no [__new__] and no cache, the second call
    allocates again, and [is] tells the two apart although their attributes
    are equal. *)
Theorem BeartypeConfiguration_not_memoized :
  BEAR_CONF_DEFAULT = Some 0%nat
  /\ BeartypeConfiguration (Some (PyBool false)) (Some (PyEnum O1)) heap_at_import
     = ([ {[ "strategy" := PyEnum O1; "is_debug" := PyBool false ]};
          {[ "strategy" := PyEnum O1; "is_debug" := PyBool false ]} ],
        Ok 1%nat)
  /\ is_ 0 1 = false.
Proof.
  split; [reflexivity |]. split; [| reflexivity].
  unfold heap_at_import, module_init.
  rewrite (BeartypeConfiguration_valid [] None None eq_refl eq_refl).
  cbn [fst].
  now rewrite (BeartypeConfiguration_valid _ (Some (PyBool false)) (Some (PyEnum O1))
                 eq_refl eq_refl).
Qed.

End Configuration.

(** * Code objects *)

Section CodeObjects.

Import utilfunccodeobj.

Lemma land_body_flags (flags : list CoFlag) (bit : Z) :
  bit = CO_VARARGS \/ bit = CO_VARKEYWORDS ->
  Z.land (fold_right (fun f acc => Z.lor (flag_bits f) acc) CO_FUNCTION flags) bit = 0.
Proof.
  intros Hbit. induction flags as [| f flags IH]; cbn [fold_right].
  - destruct Hbit as [-> | ->]; reflexivity.
  - rewrite Z.land_lor_distr_l, IH.
    destruct Hbit as [-> | ->]; destruct f; reflexivity.
Qed.

(** The flag of [*args] is set exactly when the declaration has one,
    whatever the other flags are. *)
Lemma def_flags_varargs (d : FuncDef) :
  (Z.land (co_flags (compile d)) CO_VARARGS =? 0) = negb (declared (varargs d)).
Proof.
  cbn [compile co_flags]. unfold def_flags.
  rewrite !Z.land_lor_distr_l, land_body_flags by (now left).
  destruct (varargs d), (varkw d); reflexivity.
Qed.

Lemma def_flags_varkw (d : FuncDef) :
  (Z.land (co_flags (compile d)) CO_VARKEYWORDS =? 0) = negb (declared (varkw d)).
Proof.
  cbn [compile co_flags]. unfold def_flags.
  rewrite !Z.land_lor_distr_l, land_body_flags by (now right).
  destruct (varargs d), (varkw d); reflexivity.
Qed.

Lemma declared_true (o : option string) : declared o = true <-> is_Some o.
Proof.
  destruct o; cbn; split; intros H; try reflexivity; try discriminate.
  - now eexists.
  - now destruct H.
Qed.

(** Whether an input has a code object, and which, does not depend on the
    class of the exception to raise. *)
Lemma get_func_codeobj_any_class (func : Codeobjable) (u : bool)
    (cls cls' : ExcClass) (c : CodeType) :
  get_func_codeobj func u cls = Ok c -> get_func_codeobj func u cls' = Ok c.
Proof.
  induction func; cbn; try (intros H; exact H || discriminate H).
  destruct u; [exact IHfunc | intros H; exact H].
Qed.

(** Reading the parameters back off the code object of a declaration. *)
Lemma iter_func_args_compile (func : Codeobjable) (d : FuncDef) :
  get_func_codeobj func true _BeartypeUtilCallableException = Ok (compile d) ->
  iter_func_args func = Ok (parameters d).
Proof.
  intros H. unfold iter_func_args. rewrite H. cbn [bind].
  rewrite def_flags_varargs, def_flags_varkw.
  cbn [compile co_argcount co_posonlyargcount co_kwonlyargcount co_varnames].
  rewrite !Nat2Z.id.
  set (A := map p_name (posonly d)). set (B := map p_name (flexible d)).
  set (K := map p_name (kwonly d)).
  set (rest := opt_names (varargs d) ++ opt_names (varkw d) ++ body_locals d).
  assert (LA : length A = length (posonly d)) by apply length_map.
  assert (LB : length B = length (flexible d)) by apply length_map.
  assert (LK : length K = length (kwonly d)) by apply length_map.
  rewrite <- LA, <- LB, <- LK.
  assert (E1 : take (length A + length B) (A ++ B ++ K ++ rest) = A ++ B).
  { rewrite app_assoc. apply take_app_length'. now rewrite length_app. }
  assert (E2 : drop (length A + length B) (A ++ B ++ K ++ rest) = K ++ rest).
  { rewrite app_assoc. apply drop_app_length'. now rewrite length_app. }
  assert (E3 : drop (length A + length B + length K) (A ++ B ++ K ++ rest) = rest).
  { rewrite <- drop_drop, E2. apply drop_app_length. }
  rewrite E1, E2, E3, !take_app_length, drop_app_length.
  unfold parameters, A, B, K. rewrite !map_map. subst rest.
  destruct (varargs d), (varkw d); reflexivity.
Qed.

End CodeObjects.

(** * The testers of the kind of parameters *)

Section Testers.

Import utilfunccodeobj Examples.

(** The variadic tester is the disjunction of the two others on every
    input, those without code object included: the three resolve the input
    the same way, so they fail together. *)
Lemma is_func_arg_variadic_or (func : Codeobjable) :
  is_func_arg_variadic func =
    (positional <- is_func_arg_variadic_positional func ;;
     keyword <- is_func_arg_variadic_keyword func ;;
     Ok (positional || keyword)).
Proof.
  unfold is_func_arg_variadic, is_func_arg_variadic_positional,
    is_func_arg_variadic_keyword.
  destruct (get_func_codeobj func true _BeartypeUtilCallableException) as [c | e];
    cbn [bind]; [| reflexivity].
  now destruct (negb (Z.land (co_flags c) CO_VARARGS =? 0)).
Qed.

(** The two testers of a collector on a callable declared as [d]. *)
Lemma is_func_arg_variadic_positional_compile (func : Codeobjable) (d : FuncDef) :
  get_func_codeobj func true _BeartypeUtilCallableException = Ok (compile d) ->
  is_func_arg_variadic_positional func = Ok (declared (varargs d)).
Proof.
  intros H. unfold is_func_arg_variadic_positional. rewrite H. cbn [bind].
  now rewrite def_flags_varargs, negb_involutive.
Qed.

Lemma is_func_arg_variadic_keyword_compile (func : Codeobjable) (d : FuncDef) :
  get_func_codeobj func true _BeartypeUtilCallableException = Ok (compile d) ->
  is_func_arg_variadic_keyword func = Ok (declared (varkw d)).
Proof.
  intros H. unfold is_func_arg_variadic_keyword. rewrite H. cbn [bind].
  now rewrite def_flags_varkw, negb_involutive.
Qed.

Lemma is_func_arg_variadic_compile (func : Codeobjable) (d : FuncDef) :
  get_func_codeobj func true _BeartypeUtilCallableException = Ok (compile d) ->
  is_func_arg_variadic func = Ok (declared (varargs d) || declared (varkw d)).
Proof.
  intros H.
  now rewrite is_func_arg_variadic_or, (is_func_arg_variadic_positional_compile func d H),
    (is_func_arg_variadic_keyword_compile func d H).
Qed.

(** C6. On a callable declared as [d], the positional tester answers
    whether [d] has a [*args] collector, the keyword tester whether it has
    a [**kwargs] collector, and the variadic tester the disjunction of the
    two answers. *)
Theorem is_func_arg_variadic_is_disjunction (func : Codeobjable) (d : FuncDef) :
  get_func_codeobj func true _BeartypeUtilCallableException = Ok (compile d) ->
  exists positional keyword : bool,
    is_func_arg_variadic_positional func = Ok positional
    /\ is_func_arg_variadic_keyword func = Ok keyword
    /\ is_func_arg_variadic func = Ok (positional || keyword)
    /\ (positional = true <-> is_Some (varargs d))
    /\ (keyword = true <-> is_Some (varkw d)).
Proof.
  intros H. exists (declared (varargs d)), (declared (varkw d)).
  split; [exact (is_func_arg_variadic_positional_compile func d H) |].
  split; [exact (is_func_arg_variadic_keyword_compile func d H) |].
  split; [exact (is_func_arg_variadic_compile func d H) |].
  split; apply declared_true.
Qed.

Lemma is_func_arg_variadic_is_disjunction_witness :
  exists positional keyword : bool,
    is_func_arg_variadic_positional (Wrapper (compile f_a_b) (Function (compile f_all_kinds)))
      = Ok positional
    /\ is_func_arg_variadic_keyword (Wrapper (compile f_a_b) (Function (compile f_all_kinds)))
       = Ok keyword
    /\ is_func_arg_variadic (Wrapper (compile f_a_b) (Function (compile f_all_kinds)))
       = Ok (positional || keyword)
    /\ (positional = true <-> is_Some (varargs f_all_kinds))
    /\ (keyword = true <-> is_Some (varkw f_all_kinds)).
Proof.
  apply (is_func_arg_variadic_is_disjunction
           (Wrapper (compile f_a_b) (Function (compile f_all_kinds))) f_all_kinds).
  reflexivity.
Defined.

(** What [is_func_argless] returns on a callable declared as [d]. *)
Lemma is_func_argless_compile (func : Codeobjable) (d : FuncDef) (cls : ExcClass) :
  get_func_codeobj func true cls = Ok (compile d) ->
  is_func_argless func cls =
    Ok (negb ((0 <? Z.of_nat (length (posonly d) + length (flexible d))
                    + Z.of_nat (length (kwonly d)))
              || (declared (varargs d) || declared (varkw d)))).
Proof.
  intros H. unfold is_func_argless. rewrite H. cbn [bind].
  cbn [compile co_argcount co_kwonlyargcount]. rewrite Z.gtb_ltb.
  destruct (0 <? _); [reflexivity |].
  now rewrite (is_func_arg_variadic_compile (CodeObject (compile d)) d eq_refl).
Qed.

(** C3, as the code has it. On a callable declared as [d] the tester
    returns true exactly when [d] declares no parameter at all: none that
    is positional-only, none that is flexible, none that is keyword-only,
    and neither collector. When it returns true, binding a call without
    arguments does not fail. *)
Theorem is_func_argless_iff_no_parameter (func : Codeobjable) (d : FuncDef)
    (cls : ExcClass) :
  get_func_codeobj func true cls = Ok (compile d) ->
  exists b : bool,
    is_func_argless func cls = Ok b
    /\ (b = true <->
          posonly d = [] /\ flexible d = [] /\ kwonly d = []
          /\ varargs d = None /\ varkw d = None)
    /\ (b = true <-> parameters d = [])
    /\ (b = true -> call_without_args_binds d = true).
Proof.
  intros H. eexists. split; [exact (is_func_argless_compile func d cls H) |].
  unfold parameters, call_without_args_binds.
  destruct (posonly d) as [| p ps], (flexible d) as [| q qs], (kwonly d) as [| k ks],
    (varargs d) as [va |], (varkw d) as [vk |];
    cbn; (split; [| split]); try (intros E; discriminate E);
    try (split; intros E; (discriminate E || (decompose [and] E; discriminate)));
    try (split; intros E; repeat split; reflexivity);
    try reflexivity.
Qed.

Lemma is_func_argless_iff_no_parameter_witness :
  exists b : bool,
    is_func_argless (Function (compile f_no_parameter)) _BeartypeUtilCallableException = Ok b
    /\ (b = true <->
          posonly f_no_parameter = [] /\ flexible f_no_parameter = []
          /\ kwonly f_no_parameter = []
          /\ varargs f_no_parameter = None /\ varkw f_no_parameter = None)
    /\ (b = true <-> parameters f_no_parameter = [])
    /\ (b = true -> call_without_args_binds f_no_parameter = true).
Proof.
  apply (is_func_argless_iff_no_parameter (Function (compile f_no_parameter))
           f_no_parameter _BeartypeUtilCallableException).
  reflexivity.
Defined.

(** C3, as it is stated, fails twice. [def f(a, /)] has no flexible and no
    keyword-only parameter and no collector, and the tester returns false
    on it. [def f( *args)] can be called without arguments, and the tester
    returns false on it. *)
Lemma is_func_argless_not_as_stated :
  (flexible f_a_slash = [] /\ kwonly f_a_slash = []
   /\ varargs f_a_slash = None /\ varkw f_a_slash = None
   /\ is_func_argless (Function (compile f_a_slash)) _BeartypeUtilCallableException
      = Ok false)
  /\ (call_without_args_binds f_star_args = true
      /\ is_func_argless (Function (compile f_star_args)) _BeartypeUtilCallableException
         = Ok false).
Proof. repeat split. Qed.

(** C8. On a callable that has parameters, all of them positional-only,
    the tester returns false: the sum it tests is the number of these
    parameters, although the callable has no flexible and no keyword-only
    parameter. *)
Theorem is_func_argless_positional_only (func : Codeobjable) (d : FuncDef)
    (cls : ExcClass) :
  get_func_codeobj func true cls = Ok (compile d) ->
  parameters d <> [] ->
  Forall (fun a => kind a = POSITIONAL_ONLY) (parameters d) ->
  is_func_argless func cls = Ok false
  /\ co_argcount (compile d) + co_kwonlyargcount (compile d)
     = Z.of_nat (length (posonly d))
  /\ 0 < Z.of_nat (length (posonly d))
  /\ flexible d = [] /\ kwonly d = [].
Proof.
  intros H Hne Hall. unfold parameters in Hne, Hall.
  apply Forall_app in Hall as [_ Hall]. apply Forall_app in Hall as [Hf Hall].
  apply Forall_app in Hall as [Hva Hall]. apply Forall_app in Hall as [Hk Hvk].
  assert (Ef : flexible d = []).
  { destruct (flexible d); [reflexivity |]. inversion Hf as [| ? ? E]. discriminate E. }
  assert (Ek : kwonly d = []).
  { destruct (kwonly d); [reflexivity |]. inversion Hk as [| ? ? E]. discriminate E. }
  assert (Eva : varargs d = None).
  { destruct (varargs d); [| reflexivity]. inversion Hva as [| ? ? E]. discriminate E. }
  assert (Evk : varkw d = None).
  { destruct (varkw d); [| reflexivity]. inversion Hvk as [| ? ? E]. discriminate E. }
  rewrite (is_func_argless_compile func d cls H).
  cbn [compile co_argcount co_kwonlyargcount].
  rewrite Ef, Ek, Eva, Evk in *. cbn [length map opt_names app] in *.
  destruct (posonly d) as [| p ps]; [now contradict Hne |].
  cbn [length declared orb]. rewrite Nat.add_0_r, Z.add_0_r.
  assert (L : 0 < Z.of_nat (S (length ps))) by lia.
  apply Z.ltb_lt in L as L'. rewrite L'. repeat split; exact L.
Qed.

Lemma is_func_argless_positional_only_witness :
  is_func_argless (Function (compile f_a_slash)) _BeartypeUtilCallableException = Ok false
  /\ co_argcount (compile f_a_slash) + co_kwonlyargcount (compile f_a_slash)
     = Z.of_nat (length (posonly f_a_slash))
  /\ 0 < Z.of_nat (length (posonly f_a_slash))
  /\ flexible f_a_slash = [] /\ kwonly f_a_slash = [].
Proof.
  apply (is_func_argless_positional_only (Function (compile f_a_slash)) f_a_slash
           _BeartypeUtilCallableException).
  - reflexivity.
  - discriminate.
  - repeat constructor.
Defined.

End Testers.

(** * The tester of a parameter name *)

Section Names.

Import utilfunccodeobj Examples.

Lemma any_true_iff {A : Type} (test : A -> bool) (items : list A) :
  any test items = true <-> exists x, x ∈ items /\ test x = true.
Proof.
  induction items as [| y items IH]; cbn [any].
  - split; [discriminate |]. intros (x & Hx & _). now apply elem_of_nil in Hx.
  - destruct (test y) eqn:Ty.
    + split; [| reflexivity]. intros _. exists y. split; [left | exact Ty].
    + rewrite IH. split.
      * intros (x & Hx & Tx). exists x. split; [now right | exact Tx].
      * intros (x & Hx & Tx). apply elem_of_cons in Hx as [-> | Hx]; [congruence |].
        now exists x.
Qed.

(** The scan returns the same as the scan that stops nowhere: stopping at
    the first match is not observable. *)
Lemma any_existsb {A : Type} (test : A -> bool) (items : list A) :
  any test items = existsb test items.
Proof.
  induction items as [| y items IH]; cbn; [reflexivity |].
  now destruct (test y).
Qed.

(** With any parameter iterator: the tester scans what the iterator
    yields, and fails as the iterator fails. *)
Lemma is_func_arg_name_scan (iter : Codeobjable -> result (list ArgMeta))
    (func : Codeobjable) (arg_name : string) :
  is_func_arg_name iter func (PyStr arg_name) =
    (args <- iter func ;; Ok (any (fun a => bool_decide (name a = arg_name)) args)).
Proof.
  unfold is_func_arg_name. cbn [isinstance type_of issubclass negb].
  destruct (iter func) as [args | e]; cbn [bind]; [| reflexivity].
  f_equal. induction args as [| a args IH]; cbn [any]; [reflexivity |].
  rewrite IH. destruct (decide (name a = arg_name)) as [E | N].
  - now rewrite !bool_decide_eq_true_2 by congruence.
  - now rewrite !bool_decide_eq_false_2 by congruence.
Qed.

(** C5. On a callable declared as [d], the tester returns true exactly
    when some parameter of [d] has the name, whatever its kind (positional,
    keyword-only or collector); its answer is that of the scan of all the
    parameters in declaration order. *)
Theorem is_func_arg_name_any_kind (func : Codeobjable) (d : FuncDef)
    (arg_name : string) :
  get_func_codeobj func true _BeartypeUtilCallableException = Ok (compile d) ->
  exists b : bool,
    is_func_arg_name iter_func_args func (PyStr arg_name) = Ok b
    /\ b = any (fun a => bool_decide (name a = arg_name)) (parameters d)
    /\ (b = true <-> exists a, a ∈ parameters d /\ name a = arg_name)
    /\ (b = true <->
          arg_name ∈ map p_name (posonly d) \/ arg_name ∈ map p_name (flexible d)
          \/ varargs d = Some arg_name
          \/ arg_name ∈ map p_name (kwonly d) \/ varkw d = Some arg_name).
Proof.
  intros H. eexists. split.
  { rewrite is_func_arg_name_scan, (iter_func_args_compile func d H). reflexivity. }
  split; [reflexivity |].
  assert (S : any (fun a => bool_decide (name a = arg_name)) (parameters d) = true
              <-> exists a, a ∈ parameters d /\ name a = arg_name).
  { rewrite any_true_iff. split; intros (a & Ha & E); exists a; (split; [exact Ha |]).
    - now apply bool_decide_eq_true in E.
    - now apply bool_decide_eq_true. }
  split; [exact S |]. rewrite S. unfold parameters. split.
  - intros (a & Ha & E).
    rewrite !elem_of_app, !list_elem_of_fmap in Ha.
    destruct Ha as [(p & -> & Hp) | [(p & -> & Hp) | [(n & -> & Hn) | [(p & -> & Hp) | (n & -> & Hn)]]]];
      cbn [name] in E; subst arg_name.
    + left. apply list_elem_of_fmap. now exists p.
    + right; left. apply list_elem_of_fmap. now exists p.
    + right; right; left. destruct (varargs d); cbn in Hn.
      * apply list_elem_of_singleton in Hn. now subst.
      * now apply elem_of_nil in Hn.
    + right; right; right; left. apply list_elem_of_fmap. now exists p.
    + right; right; right; right. destruct (varkw d); cbn in Hn.
      * apply list_elem_of_singleton in Hn. now subst.
      * now apply elem_of_nil in Hn.
  - rewrite !list_elem_of_fmap.
    intros [(p & -> & Hp) | [(p & -> & Hp) | [E | [(p & -> & Hp) | E]]]].
    + exists (mkArg POSITIONAL_ONLY (p_name p)). split; [| reflexivity].
      rewrite !elem_of_app, !list_elem_of_fmap. left. now exists p.
    + exists (mkArg POSITIONAL_OR_KEYWORD (p_name p)). split; [| reflexivity].
      rewrite !elem_of_app, !list_elem_of_fmap. right; left. now exists p.
    + exists (mkArg VAR_POSITIONAL arg_name). split; [| reflexivity].
      rewrite !elem_of_app, !list_elem_of_fmap. right; right; left.
      exists arg_name. split; [reflexivity |]. rewrite E. cbn. left.
    + exists (mkArg KEYWORD_ONLY (p_name p)). split; [| reflexivity].
      rewrite !elem_of_app, !list_elem_of_fmap. right; right; right; left. now exists p.
    + exists (mkArg VAR_KEYWORD arg_name). split; [| reflexivity].
      rewrite !elem_of_app, !list_elem_of_fmap. right; right; right; right.
      exists arg_name. split; [reflexivity |]. rewrite E. cbn. left.
Qed.

Lemma is_func_arg_name_any_kind_witness :
  exists b : bool,
    is_func_arg_name iter_func_args (Function (compile f_star_star_b)) (PyStr "b") = Ok b
    /\ b = any (fun a => bool_decide (name a = "b")) (parameters f_star_star_b)
    /\ (b = true <-> exists a, a ∈ parameters f_star_star_b /\ name a = "b")
    /\ (b = true <->
          "b" ∈ map p_name (posonly f_star_star_b)
          \/ "b" ∈ map p_name (flexible f_star_star_b)
          \/ varargs f_star_star_b = Some "b"
          \/ "b" ∈ map p_name (kwonly f_star_star_b)
          \/ varkw f_star_star_b = Some "b").
Proof.
  apply (is_func_arg_name_any_kind (Function (compile f_star_star_b)) f_star_star_b "b").
  reflexivity.
Defined.

End Names.

(** * The validator of the flexible count and the two assertions *)

Section Validator.

Import Examples.

Lemma append_assoc (s1 s2 s3 : string) :
  (s1 +:+ s2) +:+ s3 = s1 +:+ (s2 +:+ s3).
Proof.
  induction s1 as [| c s1 IH]; [reflexivity |].
  change (String c ((s1 +:+ s2) +:+ s3) = String c (s1 +:+ s2 +:+ s3)).
  now rewrite IH.
Qed.

Lemma contains_middle (before part after : string) :
  contains part (before +:+ part +:+ after).
Proof. now exists before, after. Qed.

(** The message of line 131, cut at each of the parts it is built from. *)
Lemma message_contains (callable actual expected : string) :
  let msg := "Callable " +:+ callable +:+ " flexible argument count " +:+
             actual +:+ " != " +:+ expected +:+ "." in
  contains callable msg /\ contains actual msg /\ contains expected msg
  /\ contains (actual +:+ " != " +:+ expected) msg.
Proof.
  intros msg. subst msg. split; [apply contains_middle |]. split; [| split].
  - exists ("Callable " +:+ callable +:+ " flexible argument count "),
      (" != " +:+ expected +:+ "."). now rewrite !append_assoc.
  - exists ("Callable " +:+ callable +:+ " flexible argument count " +:+ actual +:+ " != "),
      ".". now rewrite !append_assoc.
  - exists ("Callable " +:+ callable +:+ " flexible argument count "), ".".
    now rewrite !append_assoc.
Qed.

(** C4. With [repr] and the counting helper whatever they are: when the
    helper counts [actual] flexible parameters, the validator returns
    [None] exactly when [actual] is the expected count, and otherwise raises
    the passed exception class at line 131 with one argument, a message that
    contains the [repr] of the callable, the two counts, and the two counts
    around [!=]. *)
Theorem die_unless_func_args_len_flexible_equal_iff
    (repr : Codeobjable -> string)
    (get_func_args_len_flexible : Codeobjable -> ExcClass -> result Z)
    (func : Codeobjable) (actual expected : Z) (cls : ExcClass) :
  get_func_args_len_flexible func cls = Ok actual ->
  let r := die_unless_func_args_len_flexible_equal repr get_func_args_len_flexible
             func (PyInt expected) cls in
  (r = Ok tt <-> actual = expected)
  /\ ((exists e, r = Raise e) <-> actual <> expected)
  /\ (actual <> expected ->
      exists msg : string,
        r = Raise (Raised (mkExc cls [PyStr msg] 131))
        /\ contains (repr func) msg
        /\ contains (str_int actual) msg
        /\ contains (str_int expected) msg
        /\ contains (str_int actual +:+ " != " +:+ str_int expected) msg).
Proof.
  intros H r. subst r. unfold die_unless_func_args_len_flexible_equal.
  cbn [isinstance type_of issubclass negb int_value py_str]. rewrite H. cbn [bind].
  destruct (decide (actual = expected)) as [E | N].
  - rewrite bool_decide_eq_true_2 by congruence. cbn [negb].
    split; [tauto |]. split; [| tauto].
    split; [intros (e & He); discriminate He | tauto].
  - rewrite bool_decide_eq_false_2 by congruence. cbn [negb].
    split; [split; [discriminate | tauto] |].
    split; [split; [tauto | intros _; now eexists] |].
    intros _. eexists. split; [reflexivity |].
    apply (message_contains (repr func) (str_int actual) (str_int expected)).
Qed.

Lemma die_unless_func_args_len_flexible_equal_iff_witness :
  let r := die_unless_func_args_len_flexible_equal repr
             utilfuncargget.get_func_args_len_flexible
             (Function (compile f_a)) (PyInt 2) _BeartypeUtilCallableException in
  (r = Ok tt <-> 1 = 2)
  /\ ((exists e, r = Raise e) <-> 1 <> 2)
  /\ (1 <> 2 ->
      exists msg : string,
        r = Raise (Raised (mkExc _BeartypeUtilCallableException [PyStr msg] 131))
        /\ contains (repr (Function (compile f_a))) msg
        /\ contains (str_int 1) msg
        /\ contains (str_int 2) msg
        /\ contains (str_int 1 +:+ " != " +:+ str_int 2) msg).
Proof.
  apply (die_unless_func_args_len_flexible_equal_iff repr
           utilfuncargget.get_func_args_len_flexible
           (Function (compile f_a)) 1 2 _BeartypeUtilCallableException).
  reflexivity.
Defined.

(** The two calls of the examples: nothing happens for [f(a, b)] and 2; for
    [f(a)] and 2 the message reads [1 != 2]. *)
Lemma die_unless_func_args_len_flexible_equal_examples :
  die_unless_func_args_len_flexible_equal repr utilfuncargget.get_func_args_len_flexible
    (Function (compile f_a_b)) (PyInt 2) _BeartypeUtilCallableException = Ok tt
  /\ die_unless_func_args_len_flexible_equal repr utilfuncargget.get_func_args_len_flexible
       (Function (compile f_a)) (PyInt 2) _BeartypeUtilCallableException
     = Raise (Raised (mkExc _BeartypeUtilCallableException
         [PyStr "Callable <function f> flexible argument count 1 != 2."] 131)).
Proof. split; reflexivity. Qed.

(** C9. An expected count that is no [int] stops the validator at the
    assertion of line 116, and a name that is no [str] stops the name tester
    at the assertion of line 329, with the message of that line. Nothing was
    inspected yet: the callable, [repr] and the helpers are arbitrary, the
    callable may have no code object and the helpers may fail, and the
    outcome is the same. [AssertionError] is none of the documented error
    kinds. *)
Theorem assertions_come_first :
  (forall (repr : Codeobjable -> string)
          (get_func_args_len_flexible : Codeobjable -> ExcClass -> result Z)
          (func : Codeobjable) (func_args_len_flexible : pyval) (cls : ExcClass),
      isinstance func_args_len_flexible int_t = false ->
      die_unless_func_args_len_flexible_equal repr get_func_args_len_flexible
        func func_args_len_flexible cls
      = Raise (Raised (mkExc AssertionError [] 116)))
  /\ (forall (iter_func_args : Codeobjable -> result (list ArgMeta))
             (func : Codeobjable) (arg_name : pyval),
        isinstance arg_name str_t = false ->
        is_func_arg_name iter_func_args func arg_name
        = Raise (Raised (mkExc AssertionError
            [PyStr (py_str arg_name +:+ " not string.")] 329)))
  /\ in_error_taxonomy AssertionError = false.
Proof.
  split; [| split; [| reflexivity]].
  - intros repr get func v cls H. unfold die_unless_func_args_len_flexible_equal.
    now rewrite H.
  - intros iter func v H. unfold is_func_arg_name. now rewrite H.
Qed.

Lemma assertions_come_first_witness :
  die_unless_func_args_len_flexible_equal repr utilfuncargget.get_func_args_len_flexible
    (Builtin "len") (PyStr "2") _BeartypeUtilCallableException
  = Raise (Raised (mkExc AssertionError [] 116))
  /\ is_func_arg_name iter_func_args (NotCallable PyNone) (PyInt 7)
     = Raise (Raised (mkExc AssertionError [PyStr "7 not string."] 329))
  /\ in_error_taxonomy AssertionError = false.
Proof.
  destruct assertions_come_first as (Hint & Hstr & Htax).
  split; [| split; [| exact Htax]].
  - apply (Hint repr utilfuncargget.get_func_args_len_flexible (Builtin "len")
             (PyStr "2") _BeartypeUtilCallableException). reflexivity.
  - apply (Hstr iter_func_args (NotCallable PyNone) (PyInt 7)). reflexivity.
Defined.

End Validator.

(** * More on the configuration class *)

Section ConfigurationHeap.

Import Conf.

Implicit Types (h : list (gmap string pyval)).

(** X1. A call, whether it returns or raises, appends one instance to the
    heap and touches no instance that was there: every attribute of every
    older instance reads as before. *)
Theorem BeartypeConfiguration_keeps_older_instances h (is_debug strategy : option pyval) :
  (exists d : gmap string pyval,
      (BeartypeConfiguration is_debug strategy h).1 = h ++ [d])
  /\ length (BeartypeConfiguration is_debug strategy h).1 = S (length h)
  /\ (forall (obj : nat) (name : string),
        (obj < length h)%nat ->
        getattr (BeartypeConfiguration is_debug strategy h).1 obj name
        = getattr h obj name).
Proof.
  assert (E : exists d : gmap string pyval,
             (BeartypeConfiguration is_debug strategy h).1 = h ++ [d]).
  { destruct (isinstance (default (PyBool false) is_debug) bool_t) eqn:Hd;
      [destruct (isinstance (default (PyEnum O1) strategy) BeartypeStrategy_t) eqn:Hs |].
    - rewrite (BeartypeConfiguration_valid h _ _ Hd Hs). now eexists.
    - rewrite (BeartypeConfiguration_invalid h _ _ (or_intror Hs)). now eexists.
    - rewrite (BeartypeConfiguration_invalid h _ _ (or_introl Hd)). now eexists. }
  split; [exact E |]. destruct E as [d ->]. split.
  - rewrite length_app. cbn. lia.
  - intros obj name Hlt. unfold getattr. now rewrite lookup_app_l by exact Hlt.
Qed.

(** A call that returns was given a [bool] and a member, and returned the
    instance it appended. *)
Lemma BeartypeConfiguration_returns h (is_debug strategy : option pyval) (self : nat) :
  (BeartypeConfiguration is_debug strategy h).2 = Ok self ->
  exists (b : bool) (m : BeartypeStrategy),
    default (PyBool false) is_debug = PyBool b
    /\ default (PyEnum O1) strategy = PyEnum m
    /\ self = length h
    /\ (BeartypeConfiguration is_debug strategy h).1
       = h ++ [<["strategy" := PyEnum m]> (<["is_debug" := PyBool b]> ∅)].
Proof.
  intros H.
  destruct (isinstance (default (PyBool false) is_debug) bool_t) eqn:Hd;
    [destruct (isinstance (default (PyEnum O1) strategy) BeartypeStrategy_t) eqn:Hs |].
  - apply isinstance_bool in Hd as Bd. destruct Bd as [b Eb].
    apply isinstance_strategy in Hs as Ms. destruct Ms as (m & Em & _).
    exists b, m. rewrite (BeartypeConfiguration_valid h _ _ Hd Hs) in *.
    cbn [fst snd] in *. injection H as <-. now rewrite Eb, Em.
  - rewrite (BeartypeConfiguration_invalid h _ _ (or_intror Hs)) in H. discriminate H.
  - rewrite (BeartypeConfiguration_invalid h _ _ (or_introl Hd)) in H. discriminate H.
Qed.



(** X3. What looks like a valid argument and is not one is rejected: an
    [int] for [is_debug], 0 and 1 included although [bool] is a subclass of
    [int]; the value or the name of a member for [strategy]; [None] for
    either. The heap and the other argument do not matter for the first
    test. *)
Theorem BeartypeConfiguration_rejects_lookalikes h (n : Z) (b : bool)
    (m : BeartypeStrategy) (strategy : option pyval) :
  (BeartypeConfiguration (Some (PyInt n)) strategy h).2
    = Raise (Raised (mkExc ValueError [] 133))
  /\ (BeartypeConfiguration (Some PyNone) strategy h).2
     = Raise (Raised (mkExc ValueError [] 133))
  /\ (BeartypeConfiguration (Some (PyBool b)) (Some (PyInt (value m))) h).2
     = Raise (Raised (mkExc ValueError [] 135))
  /\ (BeartypeConfiguration (Some (PyBool b)) (Some (PyStr (strategy_name m))) h).2
     = Raise (Raised (mkExc ValueError [] 135))
  /\ (BeartypeConfiguration (Some (PyBool b)) (Some PyNone) h).2
     = Raise (Raised (mkExc ValueError [] 135)).
Proof.
  repeat split;
    match goal with
    | |- (BeartypeConfiguration ?d ?s h).2 = _ =>
        first
          [ now rewrite (BeartypeConfiguration_invalid h d s (or_introl eq_refl))
          | now rewrite (BeartypeConfiguration_invalid h d s (or_intror eq_refl)) ]
    end.
Qed.

(** X4. Building a configuration again from the two attributes of an
    instance a call returned always succeeds: the new instance is another
    one, its two attributes are the same values, and the first instance
    keeps its own. *)
Theorem BeartypeConfiguration_rebuilt_from_attributes h (is_debug strategy : option pyval)
    (x : nat) :
  (BeartypeConfiguration is_debug strategy h).2 = Ok x ->
  exists (d s : pyval) (y : nat),
    let h1 := (BeartypeConfiguration is_debug strategy h).1 in
    let out := BeartypeConfiguration (Some d) (Some s) h1 in
    getattr h1 x "is_debug" = Some d
    /\ getattr h1 x "strategy" = Some s
    /\ out.2 = Ok y
    /\ y <> x
    /\ getattr out.1 y "is_debug" = Some d
    /\ getattr out.1 y "strategy" = Some s
    /\ getattr out.1 x "is_debug" = Some d
    /\ getattr out.1 x "strategy" = Some s.
Proof.
  intros H.
  destruct (BeartypeConfiguration_returns h is_debug strategy x H)
    as (b & m & _ & _ & -> & ->).
  set (h1 := h ++ [<["strategy" := PyEnum m]> (<["is_debug" := PyBool b]> ∅)]).
  exists (PyBool b), (PyEnum m), (length h1). cbn zeta.
  rewrite (BeartypeConfiguration_valid h1 (Some (PyBool b)) (Some (PyEnum m))
             eq_refl eq_refl). cbn [fst snd default].
  assert (Hx : (length h < length h1)%nat) by (unfold h1; rewrite length_app; cbn; lia).
  assert (Gd : getattr h1 (length h) "is_debug" = Some (PyBool b)).
  { unfold h1. rewrite getattr_last. now simplify_map_eq. }
  assert (Gs : getattr h1 (length h) "strategy" = Some (PyEnum m)).
  { unfold h1. rewrite getattr_last. now simplify_map_eq. }
  split; [exact Gd |]. split; [exact Gs |]. split; [reflexivity |].
  split; [lia |]. rewrite !getattr_last.
  split; [now simplify_map_eq |]. split; [now simplify_map_eq |].
  unfold getattr in *. now rewrite !lookup_app_l by exact Hx.
Qed.

Lemma BeartypeConfiguration_rebuilt_from_attributes_witness :
  exists (d s : pyval) (y : nat),
    let h1 := (BeartypeConfiguration None (Some (PyEnum On)) []).1 in
    let out := BeartypeConfiguration (Some d) (Some s) h1 in
    getattr h1 0 "is_debug" = Some d
    /\ getattr h1 0 "strategy" = Some s
    /\ out.2 = Ok y
    /\ y <> 0%nat
    /\ getattr out.1 y "is_debug" = Some d
    /\ getattr out.1 y "strategy" = Some s
    /\ getattr out.1 0 "is_debug" = Some d
    /\ getattr out.1 0 "strategy" = Some s.
Proof.
  apply (BeartypeConfiguration_rebuilt_from_attributes [] None (Some (PyEnum On)) 0%nat).
  reflexivity.
Defined.

Lemma heap_after_snoc (calls : list (option pyval * option pyval))
    (call : option pyval * option pyval) :
  heap_after (calls ++ [call])
  = (BeartypeConfiguration call.1 call.2 (heap_after calls)).1.
Proof. unfold heap_after. now rewrite fold_left_app. Qed.

(** X5. After any sequence of constructor calls on an empty heap there is
    one instance per call, failed calls included, and every instance either
    has no attribute or has exactly [is_debug], a [bool], and [strategy], a
    member: no call leaves an instance half initialised or with a value of
    the wrong type. *)
Theorem heap_after_calls_is_well_typed (calls : list (option pyval * option pyval)) :
  length (heap_after calls) = length calls
  /\ Forall instance_ok (heap_after calls).
Proof.
  induction calls as [| call calls IH] using rev_ind; [split; [reflexivity | constructor] |].
  destruct IH as [IHl IHok]. rewrite heap_after_snoc.
  set (h := heap_after calls) in *. destruct call as [a b]. cbn [fst snd].
  destruct (isinstance (default (PyBool false) a) bool_t) eqn:Hd;
    [destruct (isinstance (default (PyEnum O1) b) BeartypeStrategy_t) eqn:Hs |].
  - rewrite (BeartypeConfiguration_valid h _ _ Hd Hs). cbn [fst].
    rewrite !length_app, IHl. split; [reflexivity |].
    apply Forall_app. split; [exact IHok |]. constructor; [| constructor].
    apply isinstance_bool in Hd as [x ->]. apply isinstance_strategy in Hs as (m & -> & _).
    right. now exists x, m.
  - rewrite (BeartypeConfiguration_invalid h _ _ (or_intror Hs)). cbn [fst].
    rewrite !length_app, IHl. split; [reflexivity |].
    apply Forall_app. split; [exact IHok |]. constructor; [now left | constructor].
  - rewrite (BeartypeConfiguration_invalid h _ _ (or_introl Hd)). cbn [fst].
    rewrite !length_app, IHl. split; [reflexivity |].
    apply Forall_app. split; [exact IHok |]. constructor; [now left | constructor].
Qed.

End ConfigurationHeap.

(** * More on the enumeration's class body *)

Section EnumerationBody.



Lemma has_value_elem (v : Z) (values : list Z) :
  Enum.has_value v values = true <-> v ∈ values.
Proof.
  induction values as [| w ws IH]; cbn [Enum.has_value].
  - split; [discriminate | intros H; now apply elem_of_nil in H].
  - rewrite orb_true_iff, IH, Z.eqb_eq, elem_of_cons. reflexivity.
Qed.

Lemma values_unique_NoDup (values : list Z) :
  Enum.values_unique values = true <-> NoDup values.
Proof.
  induction values as [| v vs IH]; cbn [Enum.values_unique].
  - split; [intros _; constructor | reflexivity].
  - rewrite andb_true_iff, negb_true_iff, IH, NoDup_cons, <- has_value_elem.
    now destruct (Enum.has_value v vs).
Qed.


(** [unique] rejects a class exactly when two of its members share a
    value; a class it accepts comes back unchanged. *)
Lemma unique_rejects_exactly_aliases {M : Type} (members : list (M * Z)) :
  (Enum.die_unless_enum_member_values_unique members = Some members
   /\ NoDup (map snd members))
  \/ (Enum.die_unless_enum_member_values_unique members = None
      /\ ~ NoDup (map snd members)).
Proof.
  unfold Enum.die_unless_enum_member_values_unique.
  destruct (Enum.values_unique (map snd members)) eqn:U.
  - left. split; [reflexivity | now apply values_unique_NoDup].
  - right. split; [reflexivity |]. intros N. apply values_unique_NoDup in N. congruence.
Qed.

End EnumerationBody.

(** * More on the testers *)

Section MoreTesters.

Import utilfunccodeobj Examples.

(** An input has a code object or has none, whatever class is passed for
    the exception. *)
Lemma get_func_codeobj_shape (func : Codeobjable) (u : bool) :
  (exists c, forall cls, get_func_codeobj func u cls = Ok c)
  \/ (forall cls, get_func_codeobj func u cls = Raise (NotCodeobjable cls)).
Proof.
  induction func as [c | c w IH | c | c | n | v]; cbn [get_func_codeobj];
    try (left; now exists c); try (now right).
  destruct u; [exact IH | left; now exists c].
Qed.

(** The testers see an input through the code object it resolves to. *)
Lemma is_func_argless_resolved (func : Codeobjable) (c : CodeType) (cls : ExcClass) :
  get_func_codeobj func true cls = Ok c ->
  is_func_argless func cls =
    Ok (negb ((co_argcount c + co_kwonlyargcount c >? 0)
              || (negb (Z.land (co_flags c) CO_VARARGS =? 0)
                  || negb (Z.land (co_flags c) CO_VARKEYWORDS =? 0)))).
Proof.
  intros H. unfold is_func_argless. rewrite H. cbn [bind].
  destruct (co_argcount c + co_kwonlyargcount c >? 0); [reflexivity |].
  rewrite is_func_arg_variadic_or. reflexivity.
Qed.

(** X7. [is_func_argless] raises nothing but the exception class it is
    passed, and only for an input without code object: the variadic tester
    it calls, which would raise the default class, is given the code object
    already resolved and cannot fail. On an input with a code object the
    answer does not depend on the class passed. *)
Theorem is_func_argless_raises_only_exception_cls (func : Codeobjable) :
  (exists b : bool, forall cls : ExcClass, is_func_argless func cls = Ok b)
  \/ (forall cls : ExcClass,
        is_func_argless func cls = Raise (NotCodeobjable cls)
        /\ get_func_codeobj func true cls = Raise (NotCodeobjable cls)).
Proof.
  destruct (get_func_codeobj_shape func true) as [[c Hc] | Hn].
  - left. eexists. intros cls. exact (is_func_argless_resolved func c cls (Hc cls)).
  - right. intros cls. split; [| exact (Hn cls)].
    unfold is_func_argless. now rewrite (Hn cls).
Qed.

(** X8. The three variadic testers fail on the same inputs, those without
    code object, and always with the default exception class; on every
    other input the three return, and the variadic tester returns the
    disjunction of the other two. *)
Theorem variadic_testers_fail_together (func : Codeobjable) :
  (exists positional keyword : bool,
      is_func_arg_variadic_positional func = Ok positional
      /\ is_func_arg_variadic_keyword func = Ok keyword
      /\ is_func_arg_variadic func = Ok (positional || keyword))
  \/ (is_func_arg_variadic_positional func
        = Raise (NotCodeobjable _BeartypeUtilCallableException)
      /\ is_func_arg_variadic_keyword func
         = Raise (NotCodeobjable _BeartypeUtilCallableException)
      /\ is_func_arg_variadic func
         = Raise (NotCodeobjable _BeartypeUtilCallableException)).
Proof.
  rewrite is_func_arg_variadic_or.
  unfold is_func_arg_variadic_positional, is_func_arg_variadic_keyword.
  destruct (get_func_codeobj_shape func true) as [[c Hc] | Hn].
  - left. rewrite Hc. cbn [bind]. now eexists _, _.
  - right. rewrite Hn. cbn [bind]. now repeat split.
Qed.



(** X10. A callable the argless tester accepts is not variadic: the three
    variadic testers return false on it. *)
Theorem argless_is_not_variadic (func : Codeobjable) (cls : ExcClass) :
  is_func_argless func cls = Ok true ->
  is_func_arg_variadic func = Ok false
  /\ is_func_arg_variadic_positional func = Ok false
  /\ is_func_arg_variadic_keyword func = Ok false.
Proof.
  intros H.
  destruct (get_func_codeobj_shape func true) as [[c Hc] | Hn].
  - rewrite (is_func_argless_resolved func c cls (Hc cls)) in H.
    injection H as H. apply negb_true_iff in H.
    apply orb_false_iff in H as [_ H]. apply orb_false_iff in H as [Hp Hk].
    rewrite is_func_arg_variadic_or.
    unfold is_func_arg_variadic_positional, is_func_arg_variadic_keyword.
    rewrite Hc. cbn [bind]. now rewrite Hp, Hk.
  - unfold is_func_argless in H. rewrite (Hn cls) in H. discriminate H.
Qed.

Lemma argless_is_not_variadic_witness :
  is_func_arg_variadic (Frame (compile f_no_parameter)) = Ok false
  /\ is_func_arg_variadic_positional (Frame (compile f_no_parameter)) = Ok false
  /\ is_func_arg_variadic_keyword (Frame (compile f_no_parameter)) = Ok false.
Proof.
  apply (argless_is_not_variadic (Frame (compile f_no_parameter)) (OtherException "E")).
  reflexivity.
Defined.

Lemma land_bit_eqb (a n : Z) :
  0 <= n -> (Z.land a (2 ^ n) =? 0) = negb (Z.testbit a n).
Proof.
  intros Hn. destruct (Z.testbit a n) eqn:T; cbn [negb].
  - apply Z.eqb_neq. intros E.
    assert (B : Z.testbit (Z.land a (2 ^ n)) n = true).
    { rewrite Z.land_spec, T, Z.pow2_bits_true by exact Hn. reflexivity. }
    rewrite E, Z.bits_0 in B. discriminate B.
  - apply Z.eqb_eq. apply Z.bits_inj'. intros m Hm.
    rewrite Z.land_spec, Z.bits_0, Z.pow2_bits_eqb by exact Hn.
    destruct (Z.eqb_spec n m) as [<- | N]; [now rewrite T | apply andb_false_r].
Qed.

(** X11. Each collector tester reads one bit of [co_flags] and nothing
    else: bit 2 for [*args], bit 3 for [**kwargs]. Two code objects that
    agree on that bit get the same answer, whatever their other flags,
    counts and names are. *)
Theorem collector_testers_read_one_bit (func : Codeobjable) (c : CodeType) :
  get_func_codeobj func true _BeartypeUtilCallableException = Ok c ->
  is_func_arg_variadic_positional func = Ok (Z.testbit (co_flags c) 2)
  /\ is_func_arg_variadic_keyword func = Ok (Z.testbit (co_flags c) 3)
  /\ is_func_arg_variadic func = Ok (Z.testbit (co_flags c) 2 || Z.testbit (co_flags c) 3).
Proof.
  intros H. rewrite is_func_arg_variadic_or.
  unfold is_func_arg_variadic_positional, is_func_arg_variadic_keyword.
  rewrite H. cbn [bind].
  change CO_VARARGS with (2 ^ 2). change CO_VARKEYWORDS with (2 ^ 3).
  rewrite !land_bit_eqb, !negb_involutive by lia. now repeat split.
Qed.

Lemma collector_testers_read_one_bit_witness :
  is_func_arg_variadic_positional (Function (mkCode 1 0 0 79 ["a"; "args"; "kwargs"]))
    = Ok (Z.testbit (co_flags (mkCode 1 0 0 79 ["a"; "args"; "kwargs"])) 2)
  /\ is_func_arg_variadic_keyword (Function (mkCode 1 0 0 79 ["a"; "args"; "kwargs"]))
     = Ok (Z.testbit (co_flags (mkCode 1 0 0 79 ["a"; "args"; "kwargs"])) 3)
  /\ is_func_arg_variadic (Function (mkCode 1 0 0 79 ["a"; "args"; "kwargs"]))
     = Ok (Z.testbit (co_flags (mkCode 1 0 0 79 ["a"; "args"; "kwargs"])) 2
           || Z.testbit (co_flags (mkCode 1 0 0 79 ["a"; "args"; "kwargs"])) 3).
Proof.
  apply (collector_testers_read_one_bit (Function (mkCode 1 0 0 79 ["a"; "args"; "kwargs"]))
           (mkCode 1 0 0 79 ["a"; "args"; "kwargs"])).
  reflexivity.
Defined.

Lemma is_func_argless_true_iff (func : Codeobjable) (d : FuncDef) (cls : ExcClass) :
  get_func_codeobj func true cls = Ok (compile d) ->
  is_func_argless func cls = Ok true <-> parameters d = [].
Proof.
  intros H. rewrite (is_func_argless_compile func d cls H). unfold parameters.
  destruct (posonly d) as [| p ps], (flexible d) as [| q qs], (kwonly d) as [| k ks],
    (varargs d) as [va |], (varkw d) as [vk |];
    cbn; split; intros E; try reflexivity; discriminate E.
Qed.

(** X12. The argless tester and the name tester agree: a callable declared
    as [d] is argless exactly when the name tester returns false for every
    name. *)
Theorem argless_iff_no_name_is_a_parameter (func : Codeobjable) (d : FuncDef)
    (cls : ExcClass) :
  get_func_codeobj func true cls = Ok (compile d) ->
  is_func_argless func cls = Ok true
  <-> (forall arg_name : string,
         is_func_arg_name iter_func_args func (PyStr arg_name) = Ok false).
Proof.
  intros H. rewrite (is_func_argless_true_iff func d cls H).
  assert (H' := get_func_codeobj_any_class func true cls
                  _BeartypeUtilCallableException (compile d) H).
  assert (S : forall arg_name : string,
            is_func_arg_name iter_func_args func (PyStr arg_name)
            = Ok (any (fun a => bool_decide (name a = arg_name)) (parameters d))).
  { intros arg_name.
    now rewrite is_func_arg_name_scan, (iter_func_args_compile func d H'). }
  split.
  - intros E arg_name. now rewrite S, E.
  - intros N. destruct (parameters d) as [| a ps]; [reflexivity |].
    specialize (N (name a)). rewrite S in N. cbn [any] in N.
    rewrite bool_decide_eq_true_2 in N by reflexivity. discriminate N.
Qed.

Lemma argless_iff_no_name_is_a_parameter_witness :
  is_func_argless (Function (compile f_no_parameter)) _BeartypeUtilCallableException
    = Ok true
  <-> (forall arg_name : string,
         is_func_arg_name iter_func_args (Function (compile f_no_parameter))
           (PyStr arg_name) = Ok false).
Proof.
  apply (argless_iff_no_name_is_a_parameter (Function (compile f_no_parameter))
           f_no_parameter _BeartypeUtilCallableException).
  reflexivity.
Defined.

End MoreTesters.

(** * More on the validator and the name tester *)

Section MoreValidator.

Import Examples.

(** X13. A [bool] passes the assertion on the expected count, [bool] being
    a subclass of [int]: [True] is compared as 1 and [False] as 0, and the
    message of a mismatch prints [True] or [False], not the number. *)
Theorem die_unless_func_args_len_flexible_equal_bool
    (repr : Codeobjable -> string)
    (get_func_args_len_flexible : Codeobjable -> ExcClass -> result Z)
    (func : Codeobjable) (actual : Z) (expected : bool) (cls : ExcClass) :
  get_func_args_len_flexible func cls = Ok actual ->
  let r := die_unless_func_args_len_flexible_equal repr get_func_args_len_flexible
             func (PyBool expected) cls in
  (r = Ok tt <-> actual = (if expected then 1 else 0))
  /\ (actual <> (if expected then 1 else 0) ->
      r = Raise (Raised (mkExc cls
            [PyStr ("Callable " +:+ repr func +:+ " flexible argument count " +:+
                    str_int actual +:+ " != " +:+
                    (if expected then "True" else "False") +:+ ".")]
            131))).
Proof.
  intros H r. subst r. unfold die_unless_func_args_len_flexible_equal.
  cbn [isinstance type_of issubclass negb int_value py_str]. rewrite H. cbn [bind].
  destruct (decide (actual = (if expected then 1 else 0))) as [E | N].
  - rewrite bool_decide_eq_true_2 by congruence. cbn [negb]. tauto.
  - rewrite bool_decide_eq_false_2 by congruence. cbn [negb].
    split; [split; [discriminate | tauto] |].
    intros _. now destruct expected.
Qed.

Lemma die_unless_func_args_len_flexible_equal_bool_witness :
  let r := die_unless_func_args_len_flexible_equal repr
             utilfuncargget.get_func_args_len_flexible
             (Function (compile f_a)) (PyBool true) _BeartypeUtilCallableException in
  (r = Ok tt <-> 1 = (if true then 1 else 0))
  /\ (1 <> (if true then 1 else 0) ->
      r = Raise (Raised (mkExc _BeartypeUtilCallableException
            [PyStr ("Callable " +:+ repr (Function (compile f_a)) +:+
                    " flexible argument count " +:+ str_int 1 +:+ " != " +:+
                    (if true then "True" else "False") +:+ ".")]
            131))).
Proof.
  apply (die_unless_func_args_len_flexible_equal_bool repr
           utilfuncargget.get_func_args_len_flexible
           (Function (compile f_a)) 1 true _BeartypeUtilCallableException).
  reflexivity.
Defined.



End MoreValidator.

(** * The constructor and the heap *)

Section ConstructorOutcome.

Import Conf.

(** X15. Whether a call raises, and which exception, is decided by the two
    arguments alone: on two heaps the same call either raises the same
    exception twice or returns twice, each time the instance past the last
    one of its heap, with the same attributes. *)
Theorem BeartypeConfiguration_outcome_ignores_heap
    (h h' : list (gmap string pyval)) (is_debug strategy : option pyval) :
  (exists e : PyError,
      (BeartypeConfiguration is_debug strategy h).2 = Raise e
      /\ (BeartypeConfiguration is_debug strategy h').2 = Raise e)
  \/ ((BeartypeConfiguration is_debug strategy h).2 = Ok (length h)
      /\ (BeartypeConfiguration is_debug strategy h').2 = Ok (length h')
      /\ forall name : string,
           getattr (BeartypeConfiguration is_debug strategy h).1 (length h) name
           = getattr (BeartypeConfiguration is_debug strategy h').1 (length h') name).
Proof.
  destruct (isinstance (default (PyBool false) is_debug) bool_t) eqn:Hd;
    [destruct (isinstance (default (PyEnum O1) strategy) BeartypeStrategy_t) eqn:Hs |].
  - right. rewrite !(BeartypeConfiguration_valid _ _ _ Hd Hs). cbn [fst snd].
    split; [reflexivity |]. split; [reflexivity |].
    intros name. now rewrite !getattr_last.
  - left. rewrite !(BeartypeConfiguration_invalid _ _ _ (or_intror Hs)). now eexists.
  - left. rewrite !(BeartypeConfiguration_invalid _ _ _ (or_introl Hd)). now eexists.
Qed.

End ConstructorOutcome.
